(** * generic_chooser.widgets: the value -> display payload mapping

    A shallow embedding of [src/generic_chooser/widgets.py]
    ([AdminChooser], [AdminChooserAdapter], [DRFChooser]) and the
    properties of the value-description payload computed by
    [get_value_data], of its rendering and of the construction of a widget.

    Python objects are an untyped [pyvalue]; a method that can raise is a
    computation in the monad [M], which threads the log of the outside
    effects the widget performs (ORM queries, HTTP GETs) and either returns
    a value or raises a Python exception. *)

From Stdlib Require Import ZArith NArith String Ascii List Bool Lia.
From stdpp Require Import base option strings pretty gmap.
Import ListNotations.

Local Open Scope string_scope.
Local Open Scope list_scope.

(** ** Python objects *)

(** A Django model class.  [ChildModel] is a model inheriting (multi-table
    or proxy) from a concrete [parent]: its instances are instances of the
    parent, and its [DoesNotExist] subclasses the parent's. *)
Inductive Model : Type :=
| RootModel (name : string)
| ChildModel (name : string) (parent : Model).

Definition Model_eq_dec (a b : Model) : {a = b} + {a <> b}.
Proof. decide equality; apply string_dec. Defined.

(** [issubclass(c, m)] *)
Fixpoint issubclass (c m : Model) : bool :=
  if Model_eq_dec c m then true
  else match c with
       | RootModel _ => false
       | ChildModel _ p => issubclass p m
       end.

(** The Python values the widget handles: [None], the JSON values that
    [Response.json()] produces, and model instances.  A [str] is the
    sequence of its (UTF-8) bytes; a float carries its [repr]; a [dict] with
    string keys is an association list in which the first binding of a key
    is the live one.  A model instance carries its class, its [pk] and what
    its [__str__] returns. *)
#[warnings="-register-all"]
Inductive pyvalue : Type :=
| VNone
| VBool (b : bool)
| VInt (n : Z)
| VFloat (repr : string)
| VStr (s : string)
| VList (items : list pyvalue)
| VDict (entries : list (string * pyvalue))
| VInstance (cls : Model) (pk : pyvalue) (title : string).

(** Python exceptions, as far as the widget can meet them. *)
Inductive exn : Type :=
| ObjectDoesNotExist (arg : pyvalue)   (* django.core.exceptions.ObjectDoesNotExist, raised as such *)
| DoesNotExist (m : Model)           (* m.DoesNotExist, a subclass of ObjectDoesNotExist *)
| KeyError (key : string)
| TypeError
| AttributeError
| NoReverseMatch                     (* django.urls.reverse found no route *)
| ConnectionError                    (* requests: the GET failed on the network *)
| JSONDecodeError                    (* Response.json(): the body is not JSON *)
| OtherError (name : string).

(** The classes named in the [except] clause of [get_value_data]. *)
Inductive exn_class : Type :=
| ObjectDoesNotExist_class
| DoesNotExist_class (m : Model).

(** [isinstance(e, cls)]: does [except cls] catch [e]? *)
Definition exn_isinstance (e : exn) (cls : exn_class) : bool :=
  match cls, e with
  | ObjectDoesNotExist_class, ObjectDoesNotExist _ => true
  | ObjectDoesNotExist_class, DoesNotExist _ => true
  | DoesNotExist_class m, DoesNotExist m' => issubclass m' m
  | _, _ => false
  end.

(** ** Builtins on values *)

Definition dict_get (d : list (string * pyvalue)) (k : string) : option pyvalue :=
  snd <$> List.find (fun kv => if string_dec (fst kv) k then true else false) d.

Definition dict_keys (d : list (string * pyvalue)) : list string := List.map fst d.

(** [v == s] for a [str] literal [s] *)
Definition eq_str (v : pyvalue) (s : string) : bool :=
  match v with
  | VStr s' => if string_dec s' s then true else false
  | _ => false
  end.

(** [needle in hay] on two [str] *)
Fixpoint str_contains (needle hay : string) : bool :=
  String.prefix needle hay ||
  match hay with
  | EmptyString => false
  | String _ rest => str_contains needle rest
  end.

(** [isinstance(v, m)] for a model class [m] *)
Definition isinstance (v : pyvalue) (m : Model) : bool :=
  match v with
  | VInstance cls _ _ => issubclass cls m
  | _ => false
  end.

(** *** django.contrib.admin.utils.quote

    [quote(s)] replaces each of the characters of [QUOTE_CHARS] in a [str] by
    ['_%02X' % ord(c)] and returns anything that is not a [str] as it is. *)

Definition QUOTE_CHARS : list ascii :=
  list_ascii_of_string ":/_#?;@&=+$,[]<>%\" ++ ["034"%char; "010"%char].

Definition hex_digit (n : N) : ascii :=
  match n with
  | 0 => "0" | 1 => "1" | 2 => "2" | 3 => "3" | 4 => "4" | 5 => "5" | 6 => "6"
  | 7 => "7" | 8 => "8" | 9 => "9" | 10 => "A" | 11 => "B" | 12 => "C"
  | 13 => "D" | 14 => "E" | _ => "F"
  end%N%char.

Definition is_quoted (c : ascii) : bool :=
  existsb (Ascii.eqb c) QUOTE_CHARS.

Fixpoint quote_str (s : string) : string :=
  match s with
  | EmptyString => EmptyString
  | String c rest =>
      if is_quoted c
      then String "_" (String (hex_digit (N_of_ascii c / 16))
                         (String (hex_digit (N_of_ascii c mod 16)) (quote_str rest)))
      else String c (quote_str rest)
  end.

Definition quote (v : pyvalue) : pyvalue :=
  match v with
  | VStr s => VStr (quote_str s)
  | _ => v
  end.


(** ** Computations: outside effects and exceptions *)

(** What the widget does to the outside world. *)
Inductive event : Type :=
| Query (m : Model) (pk : pyvalue)   (* m.objects.get(pk=pk) *)
| HttpGet (url : string).          (* requests.get(url) *)

Inductive outcome (A : Type) : Type :=
| Return (a : A)
| Raise (e : exn).
Arguments Return {A} a.
Arguments Raise {A} e.

(** A computation runs on the log of the events so far and gives an outcome
    and the extended log. *)
Definition M (A : Type) : Type := list event -> outcome A * list event.

Definition ret {A} (a : A) : M A := fun log => (Return a, log).

Definition raise {A} (e : exn) : M A := fun log => (Raise e, log).

Definition bind {A B} (c : M A) (k : A -> M B) : M B :=
  fun log =>
    match c log with
    | (Return a, log') => k a log'
    | (Raise e, log') => (Raise e, log')
    end.

(** [try: body / except cls: handler] *)
Definition try_except {A} (body : M A) (cls : exn_class) (handler : M A) : M A :=
  fun log =>
    match body log with
    | (Raise e, log') =>
        if exn_isinstance e cls then handler log' else (Raise e, log')
    | returned => returned
    end.

Definition emit (ev : event) : M unit := fun log => (Return tt, log ++ [ev]).

Declare Scope py_scope.
Delimit Scope py_scope with py.
Notation "x <- c ;; k" := (bind c (fun x => k))
  (at level 100, c at next level, right associativity) : py_scope.
Local Open Scope py_scope.

(** [obj[key]] for a [str] key *)
Definition getitem (obj : pyvalue) (key : string) : M pyvalue :=
  match obj with
  | VDict d =>
      match dict_get d key with
      | Some v => ret v
      | None => raise (KeyError key)
      end
  | _ => raise TypeError
  end.

(** [key in obj] for a [str] key *)
Definition contains (obj : pyvalue) (key : string) : M bool :=
  match obj with
  | VDict d => ret (match dict_get d key with Some _ => true | None => false end)
  | VList l => ret (existsb (fun x => eq_str x key) l)
  | VStr s => ret (str_contains key s)
  | _ => raise TypeError
  end.

(** [obj.pk] *)
Definition get_pk (obj : pyvalue) : M pyvalue :=
  match obj with
  | VInstance _ pk _ => ret pk
  | _ => raise AttributeError
  end.

(** ** The environment of a widget

    What lies outside the repository: the rows the ORM finds, what the remote
    API answers, the URL routes, and [str()] of a container. *)

Inductive http_result : Type :=
| NetworkFailure                (* requests.get raises *)
| InvalidBody                   (* a response whose body .json() cannot decode *)
| JsonBody (result : pyvalue).  (* a response with a JSON body *)

Record environment : Type := {
  database : Model -> pyvalue -> outcome pyvalue;      (* m.objects.get(pk=v) *)
  network : string -> http_result;                    (* requests.get(url).json() *)
  url_conf : string -> list pyvalue -> option string; (* reverse(name, args=...) *)
  container_str : pyvalue -> string                   (* str() of a list or dict *)
}.

Module Widget.
(** A chooser object: its class attributes, and the methods that
    [get_value_data] calls through [self], which a subclass overrides. *)
Record t : Type := {
  model : option Model;
  edit_item_url_name : option string;
  get_instance : pyvalue -> M pyvalue;
  get_title : pyvalue -> M pyvalue;
  get_edit_item_url : pyvalue -> M pyvalue
}.
End Widget.

Section Builtins.
Variable env : environment.

(** [str(v)], which is also ['%s' % v] *)
Definition py_str (v : pyvalue) : string :=
  match v with
  | VNone => "None"
  | VBool true => "True"
  | VBool false => "False"
  | VInt n => pretty n
  | VFloat r => r
  | VStr s => s
  | VInstance _ _ title => title
  | VList _ | VDict _ => container_str env v
  end.

(** [m.objects.get(pk=pk)] *)
Definition objects_get (m : Model) (pk : pyvalue) : M pyvalue :=
  fun log => (database env m pk, log ++ [Query m pk]).

(** [requests.get(url).json()] *)
Definition requests_get_json (url : string) : M pyvalue :=
  fun log =>
    (match network env url with
     | NetworkFailure => Raise ConnectionError
     | InvalidBody => Raise JSONDecodeError
     | JsonBody result => Return result
     end, log ++ [HttpGet url]).

(** [reverse(name, args=args)] *)
Definition reverse (name : string) (args : list pyvalue) : M pyvalue :=
  match url_conf env name args with
  | Some url => ret (VStr url)
  | None => raise NoReverseMatch
  end.
End Builtins.

(** django.forms.widgets.Widget.value_from_datadict, which [AdminChooser]
    inherits through [widgets.Input]: [data.get(name)]. *)
Definition Widget_value_from_datadict
    (data files : gmap string pyvalue) (name : string) : pyvalue :=
  default VNone (data !! name).

Definition empty_value_data : pyvalue :=
  VDict [("value", VNone); ("title", VStr ""); ("edit_item_url", VNone)].

Definition value_data (value title edit_item_url : pyvalue) : pyvalue :=
  VDict [("value", value); ("title", title); ("edit_item_url", edit_item_url)].

Module AdminChooser.
Section Methods.
Variable env : environment.

Definition get_instance (model : option Model) (value : pyvalue) : M pyvalue :=
  match model with
  | Some m => objects_get env m value
  | None => raise AttributeError
  end.

Definition get_edit_item_url
    (edit_item_url_name : option string) (instance : pyvalue) : M pyvalue :=
  match edit_item_url_name with
  | None => ret VNone
  | Some name =>
      pk <- get_pk instance;;
      reverse env name [quote pk]
  end.

Definition value_from_datadict
    (data files : gmap string pyvalue) (name : string) : pyvalue :=
  let result := Widget_value_from_datadict data files name in
  if eq_str result "" then VNone else result.

Definition get_title (instance : pyvalue) : M pyvalue :=
  ret (VStr (py_str env instance)).

(** [self.model and isinstance(value, self.model)] *)
Definition is_model_instance (self : Widget.t) (value : pyvalue) : bool :=
  match Widget.model self with
  | Some m => isinstance value m
  | None => false
  end.

(** [ObjectDoesNotExist if self.model is None else self.model.DoesNotExist] *)
Definition not_found_class (self : Widget.t) : exn_class :=
  match Widget.model self with
  | None => ObjectDoesNotExist_class
  | Some m => DoesNotExist_class m
  end.

Definition get_value_data (self : Widget.t) (value : pyvalue) : M pyvalue :=
  found <-
    match value with
    | VNone => ret (VNone, value)
    | _ =>
        if is_model_instance self value
        then (pk <- get_pk value;; ret (value, pk))
        else (instance <- try_except (Widget.get_instance self value)
                            (not_found_class self) (ret VNone);;
              ret (instance, value))
    end;;
  let '(instance, value) := found in
  match instance with
  | VNone => ret empty_value_data
  | _ =>
      title <- Widget.get_title self instance;;
      edit_item_url <- Widget.get_edit_item_url self instance;;
      ret (value_data value title edit_item_url)
  end.

(** Does [get_value_data] reach the [try] block, where it calls
    [self.get_instance(value)]?  Neither [value is None] nor the
    [isinstance] test holds. *)
Definition calls_get_instance (self : Widget.t) (value : pyvalue) : bool :=
  match value with
  | VNone => false
  | _ => negb (is_model_instance self value)
  end.

(** The final [if instance is None: ... else: ...] of [get_value_data],
    on its own. *)
Definition describe (self : Widget.t) (instance value : pyvalue) : M pyvalue :=
  match instance with
  | VNone => ret empty_value_data
  | _ =>
      title <- Widget.get_title self instance;;
      edit_item_url <- Widget.get_edit_item_url self instance;;
      ret (value_data value title edit_item_url)
  end.

(** An [AdminChooser] with the class attributes [model] and
    [edit_item_url_name]. *)
Definition new (model : option Model) (edit_item_url_name : option string)
    : Widget.t :=
  {| Widget.model := model;
     Widget.edit_item_url_name := edit_item_url_name;
     Widget.get_instance := get_instance model;
     Widget.get_title := get_title;
     Widget.get_edit_item_url := get_edit_item_url edit_item_url_name |}.

(** A subclass of the class of [self] that overrides [get_instance]. *)
Definition override_get_instance (self : Widget.t)
    (get_instance : pyvalue -> M pyvalue) : Widget.t :=
  {| Widget.model := Widget.model self;
     Widget.edit_item_url_name := Widget.edit_item_url_name self;
     Widget.get_instance := get_instance;
     Widget.get_title := Widget.get_title self;
     Widget.get_edit_item_url := Widget.get_edit_item_url self |}.
End Methods.
End AdminChooser.

Module DRFChooser.
Section Methods.
Variable env : environment.

(** ['%s%s/?format=json' % (self.api_base_url, quote(id))] *)
Definition request_url (api_base_url : string) (id : pyvalue) : string :=
  (api_base_url ++ py_str env (quote id) ++ "/?format=json")%string.

Definition get_instance (api_base_url : string) (id : pyvalue) : M pyvalue :=
  let url := request_url api_base_url id in
  result <- requests_get_json env url;;
  has_id <- contains result "id";;
  if negb has_id
  then (message <- getitem result "message";;
        raise (ObjectDoesNotExist message))
  else ret result.

Definition get_edit_item_url
    (edit_item_url_name : option string) (instance : pyvalue) : M pyvalue :=
  match edit_item_url_name with
  | None => ret VNone
  | Some name =>
      id <- getitem instance "id";;
      reverse env name [id]
  end.

(** A [DRFChooser]: [get_instance] and [get_edit_item_url] are
    overridden, the rest is inherited from [AdminChooser]. *)
Definition new (model : option Model) (edit_item_url_name : option string)
    (api_base_url : string) : Widget.t :=
  {| Widget.model := model;
     Widget.edit_item_url_name := edit_item_url_name;
     Widget.get_instance := get_instance api_base_url;
     Widget.get_title := AdminChooser.get_title env;
     Widget.get_edit_item_url := get_edit_item_url edit_item_url_name |}.
End Methods.
End DRFChooser.

(** ** Rendering, the telepath adapter and construction *)

(** Python's [a >= b] on two tuples of integers: the first position where
    they differ decides, and a tuple is above its proper prefixes. *)
Fixpoint tuple_ge (a b : list Z) : bool :=
  match a, b with
  | _, [] => true
  | [], _ :: _ => false
  | x :: a', y :: b' => if Z.eqb x y then tuple_ge a' b' else Z.ltb y x
  end.

Module Chooser.
(** A chooser with the class attributes that rendering reads. *)
Record t : Type := {
  widget : Widget.t;
  choose_modal_url_name : option string;
  template : string
}.
End Chooser.

(** What rendering takes from outside the repository: the version of
    Wagtail (the integers its tuple starts with), the [render_html] that
    [AdminChooser] inherits ([WidgetWithScript], the hidden input of
    [widgets.Input]) and the template engine, which gets the name of the
    template, the widget (the ['widget'] of the context) and the rest of
    the context. *)
Record renderer : Type := {
  WAGTAIL_VERSION : list Z;
  Input_render_html : string -> pyvalue -> pyvalue -> outcome pyvalue;
  render_to_string : string -> Chooser.t -> list (string * pyvalue) -> outcome pyvalue
}.

Definition lift {A} (o : outcome A) : M A := fun log => (o, log).

(** A computation that does nothing outside: it leaves the log as it is. *)
Definition quiet {A} (c : M A) : Prop := forall log, snd (c log) = log.

(** [v is None] *)
Definition is_None (v : pyvalue) : bool :=
  match v with
  | VNone => true
  | _ => false
  end.

Module Rendering.
Section Methods.
Variable env : environment.
Variable r : renderer.

Definition get_choose_modal_url (self : Chooser.t) : M pyvalue :=
  match Chooser.choose_modal_url_name self with
  | None => ret VNone
  | Some name => reverse env name []
  end.

Definition render_html (self : Chooser.t) (name : string) (value attrs : pyvalue)
    : M pyvalue :=
  value_data <-
    (if tuple_ge (WAGTAIL_VERSION r) [2; 12]%Z
     then ret value
     else AdminChooser.get_value_data (Chooser.widget self) value);;
  field_value <- getitem value_data "value";;
  original_field_html <- lift (Input_render_html r name field_value attrs);;
  shown_value <- getitem value_data "value";;
  title <- getitem value_data "title";;
  edit_item_url <- getitem value_data "edit_item_url";;
  choose_modal_url <- get_choose_modal_url self;;
  lift (render_to_string r (Chooser.template self) self
          [("original_field_html", original_field_html);
           ("attrs", attrs);
           ("is_empty", VBool (is_None shown_value));
           ("title", title);
           ("edit_item_url", edit_item_url);
           ("choose_modal_url", choose_modal_url)]).

(** [AdminChooserAdapter.js_args] *)
Definition js_args (widget : Chooser.t) : M pyvalue :=
  value_data <- AdminChooser.get_value_data (Chooser.widget widget) VNone;;
  html <- render_html widget "__NAME__" value_data (VDict [("id", VStr "__ID__")]);;
  ret (VList [html]).
End Methods.

(** One [if key in kwargs: self.key = kwargs.pop(key)] of [__init__], on
    the attributes of the instance and the keyword arguments. *)
Definition pop_kwarg (key : string)
    (st : gmap string pyvalue * gmap string pyvalue)
    : gmap string pyvalue * gmap string pyvalue :=
  match st.2 !! key with
  | Some v => (<[key := v]> st.1, delete key st.2)
  | None => st
  end.

(** [AdminChooser.__init__]; [super_init] is the inherited [__init__], run
    on the instance with the keyword arguments that are left. *)
Definition __init__ {A}
    (super_init : gmap string pyvalue -> gmap string pyvalue -> A)
    (self kwargs : gmap string pyvalue) : A :=
  let st := pop_kwarg "choose_one_text" (self, kwargs) in
  let st := pop_kwarg "choose_another_text" st in
  let st := pop_kwarg "clear_choice_text" st in
  let st := pop_kwarg "link_to_chosen_text" st in
  let st := pop_kwarg "show_edit_link" st in
  super_init st.1 st.2.

(** The keyword arguments that [__init__] keeps for the instance. *)
Definition own_kwargs : list string :=
  ["choose_one_text"; "choose_another_text"; "clear_choice_text";
   "link_to_chosen_text"; "show_edit_link"].
End Rendering.

(** The state of [__init__] after the keys of [done]: the keyword
    arguments no longer have them, and the instance has those given. *)
Definition popped (self kwargs : gmap string pyvalue) (done : list string)
    (st : gmap string pyvalue * gmap string pyvalue) : Prop :=
  (forall k, st.2 !! k = if bool_decide (k ∈ done) then None else kwargs !! k)
  /\ (forall k, st.1 !! k
                = if bool_decide (k ∈ done)
                  then match kwargs !! k with Some v => Some v | None => self !! k end
                  else self !! k).

(** The context that [render_html] gives to the template for the fields of
    a value description. *)
Definition chooser_context (original_field_html attrs value title edit_item_url
                              choose_modal_url : pyvalue) : list (string * pyvalue) :=
  [("original_field_html", original_field_html);
   ("attrs", attrs);
   ("is_empty", VBool (is_None value));
   ("title", title);
   ("edit_item_url", edit_item_url);
   ("choose_modal_url", choose_modal_url)].

(** [render_html] once it holds the fields of the value description. *)
Definition render_fields (env : environment) (r : renderer) (self : Chooser.t)
    (name : string) (attrs value title edit_item_url : pyvalue) : M pyvalue :=
  original_field_html <- lift (Input_render_html r name value attrs);;
  choose_modal_url <- Rendering.get_choose_modal_url env self;;
  lift (render_to_string r (Chooser.template self) self
          (chooser_context original_field_html attrs value title edit_item_url
             choose_modal_url)).

(** What [render_html] does with the value description, whatever the
    version. *)
Definition render_value_data (env : environment) (r : renderer) (self : Chooser.t)
    (name : string) (attrs value_data : pyvalue) : M pyvalue :=
  field_value <- getitem value_data "value";;
  original_field_html <- lift (Input_render_html r name field_value attrs);;
  shown_value <- getitem value_data "value";;
  title <- getitem value_data "title";;
  edit_item_url <- getitem value_data "edit_item_url";;
  choose_modal_url <- Rendering.get_choose_modal_url env self;;
  lift (render_to_string r (Chooser.template self) self
          (chooser_context original_field_html attrs shown_value title
             edit_item_url choose_modal_url)).

(** ** A site to run the widgets on *)

Module Site.
Definition Page : Model := RootModel "Page".
(** a model inheriting from [Page]: its primary key is the link to its
    [Page] row, so that the ORM accepts an instance as a [pk] *)
Definition BlogPage : Model := ChildModel "BlogPage" Page.

Definition home (m : Model) : pyvalue := VInstance m (VInt 1) "Home".

(** one row, with primary key 1 *)
Definition rows (m : Model) (pk : pyvalue) : outcome pyvalue :=
  match pk with
  | VInt 1 => Return (home m)
  | VInstance _ (VInt 1) _ => Return (home m)
  | _ => Raise (DoesNotExist m)
  end.

Definition api : string := "https://cms.example/api/pages/".

Definition answers (url : string) : http_result :=
  if String.eqb url "https://cms.example/api/pages/5/?format=json"
  then JsonBody (VDict [("id", VInt 5); ("title", VStr "Five")])
  else if String.eqb url "https://cms.example/api/pages/6/?format=json"
  then JsonBody (VDict [("message", VStr "No Page matches the given query.")])
  else if String.eqb url "https://cms.example/api/pages/7/?format=json"
  then JsonBody (VDict [("detail", VStr "Not found.")])
  else if String.eqb url "https://cms.example/api/pages/8/?format=json"
  then InvalidBody
  else NetworkFailure.

Definition routes (name : string) (args : list pyvalue) : option string :=
  match args with
  | [VInt n] => Some ("/admin/" ++ name ++ "/" ++ pretty n ++ "/")%string
  | [VStr s] => Some ("/admin/" ++ name ++ "/" ++ s ++ "/")%string
  | _ => None
  end.

Definition env : environment :=
  {| database := rows;
     network := answers;
     url_conf := routes;
     container_str := fun _ => "{...}" |}.
End Site.

Module Demo.
(** Wagtail 2.15.1; the inherited [render_html] gives the hidden input and
    the template engine a line with the title and the empty flag. *)
Definition hidden_input (name : string) (value attrs : pyvalue) : outcome pyvalue :=
  match value with
  | VNone => Return (VStr ("<input type=hidden name=" ++ name ++ ">")%string)
  | VInt n =>
      Return (VStr ("<input type=hidden name=" ++ name ++ " value=" ++ pretty n ++ ">")%string)
  | VStr s =>
      Return (VStr ("<input type=hidden name=" ++ name ++ " value=" ++ s ++ ">")%string)
  | _ => Raise TypeError
  end.

Definition engine (template : string) (widget : Chooser.t)
    (context : list (string * pyvalue)) : outcome pyvalue :=
  match dict_get context "title", dict_get context "is_empty" with
  | Some (VStr title), Some (VBool true) => Return (VStr (template ++ ": empty")%string)
  | Some (VStr title), Some (VBool false) => Return (VStr (template ++ ": " ++ title)%string)
  | _, _ => Raise (KeyError "title")
  end.

Definition wagtail_2_15 : renderer :=
  {| WAGTAIL_VERSION := [2; 15; 1]%Z;
     Input_render_html := hidden_input;
     render_to_string := engine |}.

Definition wagtail_2_11 : renderer :=
  {| WAGTAIL_VERSION := [2; 11; 3]%Z;
     Input_render_html := hidden_input;
     render_to_string := engine |}.

Definition page_chooser : Chooser.t :=
  {| Chooser.widget := AdminChooser.new Site.env (Some Site.Page) None;
     Chooser.choose_modal_url_name := None;
     Chooser.template := "generic_chooser/widgets/chooser.html" |}.
End Demo.

(** ** Running computations *)

Import AdminChooser.
Import DRFChooser (request_url).

(** [quote] on a primary key with a slash and an underscore *)
Example quote_slash : quote (VStr "a/b_c") = VStr "a_2Fb_5Fc".
Proof. reflexivity. Qed.

Lemma bind_Return {A B} (c : M A) (k : A -> M B) log a log' :
  c log = (Return a, log') -> bind c k log = k a log'.
Proof. intros Hc. unfold bind. now rewrite Hc. Qed.

Lemma bind_Raise {A B} (c : M A) (k : A -> M B) log e log' :
  c log = (Raise e, log') -> bind c k log = (Raise e, log').
Proof. intros Hc. unfold bind. now rewrite Hc. Qed.

Lemma try_except_Return {A} (body handler : M A) cls log a log' :
  body log = (Return a, log') ->
  try_except body cls handler log = (Return a, log').
Proof. intros Hb. unfold try_except. now rewrite Hb. Qed.

Lemma try_except_caught {A} (body handler : M A) cls log e log' :
  body log = (Raise e, log') -> exn_isinstance e cls = true ->
  try_except body cls handler log = handler log'.
Proof. intros Hb He. unfold try_except. now rewrite Hb, He. Qed.

Lemma try_except_uncaught {A} (body handler : M A) cls log e log' :
  body log = (Raise e, log') -> exn_isinstance e cls = false ->
  try_except body cls handler log = (Raise e, log').
Proof. intros Hb He. unfold try_except. now rewrite Hb, He. Qed.

Lemma issubclass_refl (m : Model) : issubclass m m = true.
Proof.
  destruct m; cbn [issubclass];
    match goal with
    | |- context [Model_eq_dec ?a ?b] => destruct (Model_eq_dec a b)
    end; congruence.
Qed.

(** ** The three branches of [get_value_data] *)

Lemma get_value_data_None (self : Widget.t) log :
  get_value_data self VNone log = (Return empty_value_data, log).
Proof. reflexivity. Qed.

Lemma get_value_data_isinstance (self : Widget.t) cls pk title log :
  is_model_instance self (VInstance cls pk title) = true ->
  get_value_data self (VInstance cls pk title) log
  = describe self (VInstance cls pk title) pk log.
Proof.
  intros Hi. unfold get_value_data. rewrite Hi. reflexivity.
Qed.

Lemma get_value_data_lookup (self : Widget.t) value log :
  calls_get_instance self value = true ->
  get_value_data self value log
  = (instance <- try_except (Widget.get_instance self value)
                   (not_found_class self) (ret VNone);;
     describe self instance value) log.
Proof.
  intros Hc. unfold get_value_data.
  destruct value; simpl in Hc; try discriminate;
    try (apply negb_true_iff in Hc; rewrite Hc);
    unfold bind; destruct (try_except _ _ _ log) as [[i|e] l]; reflexivity.
Qed.

Lemma describe_populated (self : Widget.t) instance value title url log log1 log2 :
  instance <> VNone ->
  Widget.get_title self instance log = (Return title, log1) ->
  Widget.get_edit_item_url self instance log1 = (Return url, log2) ->
  describe self instance value log = (Return (value_data value title url), log2).
Proof.
  intros Hn Ht Hu.
  assert (describe self instance value log
          = (t <- Widget.get_title self instance;;
             u <- Widget.get_edit_item_url self instance;;
             ret (value_data value t u)) log) as ->
    by (destruct instance; try reflexivity; congruence).
  rewrite (bind_Return _ _ _ _ _ Ht), (bind_Return _ _ _ _ _ Hu). reflexivity.
Qed.

(** A returned description is a record of the three fields; its [value] is
    the one passed in unless the instance is [None]. *)
Lemma describe_returns (self : Widget.t) instance value log payload log' :
  describe self instance value log = (Return payload, log') ->
  payload = empty_value_data \/
  exists title url, payload = value_data value title url.
Proof.
  unfold describe. intros Hd.
  destruct instance;
    try (left; unfold ret in Hd; congruence);
    right; unfold bind in Hd;
    destruct (Widget.get_title self _ log) as [[t|e] l1]; try discriminate;
    destruct (Widget.get_edit_item_url self _ l1) as [[u|e] l2]; try discriminate;
    exists t, u; unfold ret in Hd; congruence.
Qed.

Lemma get_value_data_caught (self : Widget.t) v e log log' :
  calls_get_instance self v = true ->
  Widget.get_instance self v log = (Raise e, log') ->
  exn_isinstance e (not_found_class self) = true ->
  get_value_data self v log = (Return empty_value_data, log').
Proof.
  intros Hc Hg He. rewrite (get_value_data_lookup _ _ _ Hc).
  rewrite (bind_Return _ _ log VNone log'); [reflexivity|].
  now apply (try_except_caught _ _ _ _ e).
Qed.

Lemma get_value_data_propagates (self : Widget.t) v e log log' :
  calls_get_instance self v = true ->
  Widget.get_instance self v log = (Raise e, log') ->
  exn_isinstance e (not_found_class self) = false ->
  get_value_data self v log = (Raise e, log').
Proof.
  intros Hc Hg He. rewrite (get_value_data_lookup _ _ _ Hc).
  apply bind_Raise. now apply try_except_uncaught.
Qed.

(** ** Properties of the widgets *)

(** C1 (as amended).  For every value [v] that is not an instance of the
    configured model and for which [get_instance(v)] raises the not-found
    exception ([self.model.DoesNotExist] when a model is configured,
    [ObjectDoesNotExist] when [self.model] is [None], or a subclass of it),
    [get_value_data(v)] returns the empty-selection payload instead of
    propagating the exception. *)
Theorem get_value_data_not_found (self : Widget.t) v e log log' :
  is_model_instance self v = false ->
  Widget.get_instance self v log = (Raise e, log') ->
  exn_isinstance e (not_found_class self) = true ->
  get_value_data self v log
  = (Return empty_value_data, match v with VNone => log | _ => log' end).
Proof.
  intros Hi Hg He.
  destruct (calls_get_instance self v) eqn:Hc.
  - rewrite (get_value_data_caught _ _ _ _ _ Hc Hg He).
    destruct v; try reflexivity. discriminate Hc.
  - destruct v; simpl in Hc; try reflexivity;
      rewrite Hi in Hc; discriminate Hc.
Qed.

Lemma get_value_data_not_found_witness :
  Widget.get_instance (new Site.env (Some Site.Page) None) (VInt 2) []
  = (Raise (DoesNotExist Site.Page), [Query Site.Page (VInt 2)]) /\
  get_value_data (new Site.env (Some Site.Page) None) (VInt 2) []
  = (Return empty_value_data, [Query Site.Page (VInt 2)]).
Proof.
  split; [reflexivity|].
  apply (get_value_data_not_found (new Site.env (Some Site.Page) None)
           (VInt 2) (DoesNotExist Site.Page) [] [Query Site.Page (VInt 2)]);
    reflexivity.
Defined.

(** C1 as stated fails on an instance of the configured model: the lookup
    of a deleted [BlogPage] raises [BlogPage.DoesNotExist], and
    [get_value_data] of that instance, which does no lookup, describes it. *)
Lemma get_value_data_not_found_counterexample :
  let self := new Site.env (Some Site.BlogPage) None in
  let v := VInstance Site.BlogPage (VInt 2) "Deleted page" in
  Widget.get_instance self v [] = (Raise (DoesNotExist Site.BlogPage), [Query Site.BlogPage v]) /\
  exn_isinstance (DoesNotExist Site.BlogPage) (not_found_class self) = true /\
  get_value_data self v []
  = (Return (VDict [("value", VInt 2); ("title", VStr "Deleted page");
                    ("edit_item_url", VNone)]), []) /\
  fst (get_value_data self v []) <> Return empty_value_data.
Proof. repeat split; try reflexivity. discriminate. Qed.

(** C2 (as amended).  For every non-None value [v] that is not an instance
    of the configured model and for which [get_instance(v)] returns an
    instance: [get_title(instance)] is [str(instance)]; if
    [get_edit_item_url(instance)] returns, [get_value_data(v)] returns the
    populated payload whose ['value'] is [v], whose ['title'] is
    [get_title(instance)] and whose ['edit_item_url'] is
    [get_edit_item_url(instance)], which is [None] exactly when
    [edit_item_url_name] is [None]; and if [get_edit_item_url(instance)]
    raises ([reverse] finds no route), [get_value_data(v)] raises that
    exception and returns no payload. *)
Theorem get_value_data_found env model name v instance log log1 :
  let self := new env model name in
  v <> VNone ->
  is_model_instance self v = false ->
  Widget.get_instance self v log = (Return instance, log1) ->
  instance <> VNone ->
  Widget.get_title self instance log1 = (Return (VStr (py_str env instance)), log1)
  /\ match Widget.get_edit_item_url self instance log1 with
     | (Return url, log2) =>
         get_value_data self v log
         = (Return (VDict [("value", v); ("title", VStr (py_str env instance));
                           ("edit_item_url", url)]), log2)
         /\ (url = VNone <-> name = None)
     | (Raise e, log2) => get_value_data self v log = (Raise e, log2)
     end.
Proof.
  intros self Hv Hi Hg Hn.
  assert (Ht : Widget.get_title self instance log1
               = (Return (VStr (py_str env instance)), log1)) by reflexivity.
  split; [exact Ht|].
  assert (Hc : calls_get_instance self v = true)
    by (destruct v; simpl; try congruence; now rewrite Hi).
  assert (Hrun : get_value_data self v log = describe self instance v log1).
  { rewrite (get_value_data_lookup _ _ _ Hc).
    rewrite (bind_Return _ _ log instance log1)
      by (now apply try_except_Return).
    reflexivity. }
  destruct (Widget.get_edit_item_url self instance log1) as [[url|e] log2] eqn:Hu.
  - split.
    + rewrite Hrun.
      now apply (describe_populated self instance v _ url log1 log1 log2).
    + simpl in Hu. unfold get_edit_item_url in Hu.
      destruct name as [n|].
      * split; [|discriminate]. intros ->.
        unfold bind, reverse, ret, raise in Hu.
        destruct (get_pk instance log1) as [[pk|e] l]; try discriminate.
        destruct (url_conf env n [quote pk]); discriminate.
      * split; [reflexivity|]. intros _. unfold ret in Hu. congruence.
  - rewrite Hrun.
    assert (describe self instance v log1
            = (t <- Widget.get_title self instance;;
               u <- Widget.get_edit_item_url self instance;;
               ret (value_data v t u)) log1) as ->
      by (destruct instance; try reflexivity; congruence).
    rewrite (bind_Return _ _ _ _ _ Ht). now apply bind_Raise.
Qed.

Lemma get_value_data_found_witness :
  get_value_data (new Site.env (Some Site.Page) (Some "pages")) (VInt 1) []
  = (Return (VDict [("value", VInt 1); ("title", VStr "Home");
                    ("edit_item_url", VStr "/admin/pages/1/")]),
     [Query Site.Page (VInt 1)]).
Proof.
  destruct (get_value_data_found Site.env (Some Site.Page) (Some "pages") (VInt 1)
              (Site.home Site.Page) [] [Query Site.Page (VInt 1)])
    as [_ H]; [discriminate | reflexivity | reflexivity | discriminate |].
  exact (proj1 H).
Defined.

(** C2 as stated fails on an instance of the configured model: the ORM finds
    the row of [BlogPage] 1 when given the instance itself, and the
    ['value'] of the payload is the primary key 1, not the instance.  It
    fails too where the edit route cannot be reversed: [Page] 1 is found,
    and [get_value_data] raises [NoReverseMatch]. *)
Lemma get_value_data_found_counterexample :
  (let self := new Site.env (Some Site.BlogPage) None in
   let v := VInstance Site.BlogPage (VInt 1) "Home" in
   v <> VNone /\
   Widget.get_instance self v []
   = (Return (Site.home Site.BlogPage), [Query Site.BlogPage v]) /\
   get_value_data self v []
   = (Return (VDict [("value", VInt 1); ("title", VStr "Home");
                     ("edit_item_url", VNone)]), []) /\
   VInt 1 <> v)
  /\
  (let env := {| database := Site.rows;
                 network := Site.answers;
                 url_conf := fun _ _ => None;
                 container_str := fun _ => "{...}" |} in
   let self := new env (Some Site.Page) (Some "pages") in
   VInt 1 <> VNone /\
   is_model_instance self (VInt 1) = false /\
   Widget.get_instance self (VInt 1) []
   = (Return (Site.home Site.Page), [Query Site.Page (VInt 1)]) /\
   Site.home Site.Page <> VNone /\
   get_value_data self (VInt 1) []
   = (Raise NoReverseMatch, [Query Site.Page (VInt 1)])).
Proof. repeat split; try reflexivity; discriminate. Qed.


Lemma quote_str_unquoted (s : string) :
  forallb (fun c => negb (is_quoted c)) (list_ascii_of_string s) = true ->
  quote_str s = s.
Proof.
  induction s as [|c s IH]; simpl; [reflexivity|].
  intros H. apply andb_true_iff in H as [Hc Hs].
  apply negb_true_iff in Hc. rewrite Hc, (IH Hs). reflexivity.
Qed.

Lemma drf_get_instance_log env api id log :
  snd (DRFChooser.get_instance env api id log)
  = log ++ [HttpGet (request_url env api id)].
Proof.
  unfold DRFChooser.get_instance, bind, requests_get_json.
  destruct (network env (request_url env api id)) as [| |result]; try reflexivity.
  destruct result as [| | | | s | l | d | ]; try reflexivity; simpl.
  - destruct (str_contains "id" s); reflexivity.
  - destruct (existsb _ l); reflexivity.
  - destruct (dict_get d "id"); simpl; [reflexivity|].
    unfold bind. destruct (dict_get d "message"); reflexivity.
Qed.

(** C3 (as amended).  For the REST variant with no model configured, every
    API JSON object answered for a non-None value that lacks an ['id'] field
    and carries a ['message'] field is a not-found report, and
    [get_value_data] returns the empty-selection payload. *)
Theorem drf_not_found_report env name api v d message log :
  let self := DRFChooser.new env None name api in
  v <> VNone ->
  network env (request_url env api v) = JsonBody (VDict d) ->
  dict_get d "id" = None ->
  dict_get d "message" = Some message ->
  Widget.get_instance self v log
  = (Raise (ObjectDoesNotExist message), log ++ [HttpGet (request_url env api v)])
  /\ get_value_data self v log
     = (Return empty_value_data, log ++ [HttpGet (request_url env api v)]).
Proof.
  intros self Hv Hnet Hid Hmsg.
  assert (Hg : Widget.get_instance self v log
               = (Raise (ObjectDoesNotExist message),
                  log ++ [HttpGet (request_url env api v)])).
  { simpl. unfold DRFChooser.get_instance, bind, requests_get_json.
    rewrite Hnet. simpl. rewrite Hid. simpl.
    unfold bind. rewrite Hmsg. reflexivity. }
  split; [exact Hg|].
  apply (get_value_data_caught self v (ObjectDoesNotExist message));
    [| exact Hg | reflexivity].
  destruct v; simpl; congruence.
Qed.

Lemma drf_not_found_report_witness :
  get_value_data (DRFChooser.new Site.env None (Some "pages") Site.api) (VInt 6) []
  = (Return empty_value_data,
     [HttpGet "https://cms.example/api/pages/6/?format=json"]).
Proof.
  apply (drf_not_found_report Site.env (Some "pages") Site.api (VInt 6)
           [("message", VStr "No Page matches the given query.")]
           (VStr "No Page matches the given query.") []);
    try reflexivity; discriminate.
Defined.

(** C3 as stated fails: an answer without ['id'] and without ['message']
    makes [get_instance] raise [KeyError], which [get_value_data] does not
    catch; and with a model configured the [ObjectDoesNotExist] of a
    not-found report is not the exception the [except] clause names. *)
Lemma drf_not_found_report_counterexample :
  Site.answers "https://cms.example/api/pages/7/?format=json"
  = JsonBody (VDict [("detail", VStr "Not found.")]) /\
  get_value_data (DRFChooser.new Site.env None None Site.api) (VInt 7) []
  = (Raise (KeyError "message"),
     [HttpGet "https://cms.example/api/pages/7/?format=json"]) /\
  Site.answers "https://cms.example/api/pages/6/?format=json"
  = JsonBody (VDict [("message", VStr "No Page matches the given query.")]) /\
  get_value_data (DRFChooser.new Site.env (Some Site.Page) None Site.api) (VInt 6) []
  = (Raise (ObjectDoesNotExist (VStr "No Page matches the given query.")),
     [HttpGet "https://cms.example/api/pages/6/?format=json"]).
Proof. repeat split. Qed.

(** C4 (as amended).  For the REST variant, [get_instance(id)] issues
    exactly one HTTP GET, to the URL [api_base_url + str(quote(id)) +
    '/?format=json'], where [quote] is the admin's escaping of primary keys;
    this is [api_base_url + id + '/?format=json'] for every [str] [id] with
    none of the escaped characters. *)
Theorem drf_get_instance_url env api id log :
  snd (DRFChooser.get_instance env api id log)
  = log ++ [HttpGet (api ++ py_str env (quote id) ++ "/?format=json")%string]
  /\ forall s,
       id = VStr s ->
       forallb (fun c => negb (is_quoted c)) (list_ascii_of_string s) = true ->
       snd (DRFChooser.get_instance env api id log)
       = log ++ [HttpGet (api ++ s ++ "/?format=json")%string].
Proof.
  split; [apply drf_get_instance_log|].
  intros s -> Hs. rewrite drf_get_instance_log. unfold request_url. simpl.
  now rewrite (quote_str_unquoted s Hs).
Qed.

Lemma drf_get_instance_url_witness :
  snd (DRFChooser.get_instance Site.env Site.api (VStr "5") [])
  = [HttpGet "https://cms.example/api/pages/5/?format=json"].
Proof.
  apply (proj2 (drf_get_instance_url Site.env Site.api (VStr "5") []) "5");
    reflexivity.
Defined.

(** C4 as stated fails on an id with an escaped character: for ['my_item']
    the URL requested has ['my_5Fitem']. *)
Lemma drf_get_instance_url_counterexample :
  snd (DRFChooser.get_instance Site.env Site.api (VStr "my_item") [])
  = [HttpGet "https://cms.example/api/pages/my_5Fitem/?format=json"] /\
  "https://cms.example/api/pages/my_5Fitem/?format=json"
  <> (Site.api ++ "my_item" ++ "/?format=json")%string.
Proof. split; [reflexivity | discriminate]. Qed.


Lemma drf_get_instance_failure env api id log :
  match network env (request_url env api id) with
  | NetworkFailure =>
      DRFChooser.get_instance env api id log
      = (Raise ConnectionError, log ++ [HttpGet (request_url env api id)])
  | InvalidBody =>
      DRFChooser.get_instance env api id log
      = (Raise JSONDecodeError, log ++ [HttpGet (request_url env api id)])
  | JsonBody _ => True
  end.
Proof.
  destruct (network env (request_url env api id)) eqn:Hn; [| |exact I];
    unfold DRFChooser.get_instance, bind, requests_get_json;
    rewrite Hn; reflexivity.
Qed.

(** C5.  For the REST variant, whenever [get_value_data(v)] calls
    [get_instance(v)], any exception it raises other than the configured
    not-found exception propagates out of [get_value_data], which produces
    no payload; so do a network failure and a JSON decode failure of the
    remote GET. *)
Theorem drf_failures_propagate env model name api v log :
  let self := DRFChooser.new env model name api in
  calls_get_instance self v = true ->
  (forall e log',
      Widget.get_instance self v log = (Raise e, log') ->
      exn_isinstance e (not_found_class self) = false ->
      get_value_data self v log = (Raise e, log'))
  /\ (network env (request_url env api v) = NetworkFailure ->
      get_value_data self v log
      = (Raise ConnectionError, log ++ [HttpGet (request_url env api v)]))
  /\ (network env (request_url env api v) = InvalidBody ->
      get_value_data self v log
      = (Raise JSONDecodeError, log ++ [HttpGet (request_url env api v)])).
Proof.
  intros self Hc.
  pose proof (drf_get_instance_failure env api v log) as Hf.
  split; [|split].
  - intros e log'. now apply get_value_data_propagates.
  - intros Hn. rewrite Hn in Hf.
    apply get_value_data_propagates; [assumption | exact Hf |].
    unfold not_found_class. destruct (Widget.model self); reflexivity.
  - intros Hn. rewrite Hn in Hf.
    apply get_value_data_propagates; [assumption | exact Hf |].
    unfold not_found_class. destruct (Widget.model self); reflexivity.
Qed.

Lemma drf_failures_propagate_witness :
  get_value_data (DRFChooser.new Site.env None None Site.api) (VInt 9) []
  = (Raise ConnectionError,
     [HttpGet "https://cms.example/api/pages/9/?format=json"]) /\
  get_value_data (DRFChooser.new Site.env None None Site.api) (VInt 8) []
  = (Raise JSONDecodeError,
     [HttpGet "https://cms.example/api/pages/8/?format=json"]).
Proof.
  split.
  - apply (proj1 (proj2 (drf_failures_propagate Site.env None None Site.api
                           (VInt 9) [] eq_refl))).
    reflexivity.
  - apply (proj2 (proj2 (drf_failures_propagate Site.env None None Site.api
                           (VInt 8) [] eq_refl))).
    reflexivity.
Defined.

(** C6 (as amended).  The value description is a record of [value],
    [title] and [edit_item_url]; when no selection exists, that is for
    [get_value_data(None)], it is the record
    [{'value': None, 'title': '', 'edit_item_url': None}], whose [value] is
    [None], and no lookup is done. *)
Theorem get_value_data_no_selection (self : Widget.t) log :
  get_value_data self VNone log
  = (Return (VDict [("value", VNone); ("title", VStr ""); ("edit_item_url", VNone)]),
     log).
Proof. apply get_value_data_None. Qed.

(** C6 as stated fails: [get_value_data(None)] is a record, not [None]. *)
Lemma get_value_data_no_selection_counterexample :
  get_value_data (new Site.env (Some Site.Page) None) VNone []
  = (Return (VDict [("value", VNone); ("title", VStr ""); ("edit_item_url", VNone)]),
     []) /\
  fst (get_value_data (new Site.env (Some Site.Page) None) VNone []) <> Return VNone.
Proof. split; [reflexivity | discriminate]. Qed.

(** C7.  For every value [v], [get_instance(v)] of an [AdminChooser] with
    a model returns what [self.model.objects.get(pk=v)] returns or raises,
    and that is the only query. *)
Theorem get_instance_objects_get env m name v log :
  Widget.get_instance (new env (Some m) name) v log = objects_get env m v log
  /\ Widget.get_instance (new env (Some m) name) v log
     = (database env m v, log ++ [Query m v]).
Proof. split; reflexivity. Qed.

(** C8.  [value_from_datadict] returns [None] when the raw value of the
    widget in the submitted data is the empty string, and returns any other
    raw value as it is. *)
Theorem value_from_datadict_empty (data files : gmap string pyvalue) name :
  (data !! name = Some (VStr "") -> value_from_datadict data files name = VNone)
  /\ (forall raw,
        Widget_value_from_datadict data files name = raw ->
        raw <> VStr "" ->
        value_from_datadict data files name = raw).
Proof.
  unfold value_from_datadict, Widget_value_from_datadict. split.
  - intros ->. reflexivity.
  - intros raw -> Hraw.
    destruct raw as [| b | n | r | s | l | d | c pk t]; try reflexivity.
    simpl. destruct (string_dec s ""); congruence.
Qed.

Lemma value_from_datadict_empty_witness :
  value_from_datadict {[ "page" := VStr "" ]} ∅ "page" = VNone /\
  value_from_datadict {[ "page" := VStr "7" ]} ∅ "page" = VStr "7".
Proof.
  split.
  - apply (proj1 (value_from_datadict_empty {[ "page" := VStr "" ]} ∅ "page")).
    reflexivity.
  - apply (proj2 (value_from_datadict_empty {[ "page" := VStr "7" ]} ∅ "page")
             (VStr "7")); [reflexivity | discriminate].
Defined.

(** C9.  When the value passed to [get_value_data] is an instance of the
    configured model, [get_instance] is not called (whatever a subclass
    makes of it, the outcome is the same, and an [AdminChooser] does no
    query), the ['value'] of the payload is [instance.pk], and its
    ['title'] and ['edit_item_url'] are computed from that instance. *)
Theorem get_value_data_isinstance_pk (self : Widget.t) m cls pk title log :
  let instance := VInstance cls pk title in
  Widget.model self = Some m ->
  issubclass cls m = true ->
  get_value_data self instance log
  = (t <- Widget.get_title self instance;;
     url <- Widget.get_edit_item_url self instance;;
     ret (VDict [("value", pk); ("title", t); ("edit_item_url", url)])) log
  /\ (forall get_instance,
        get_value_data (override_get_instance self get_instance) instance log
        = get_value_data self instance log)
  /\ (forall env name,
        snd (get_value_data (new env (Some m) name) instance log) = log).
Proof.
  intros instance Hm Hs.
  assert (Hi : forall w, Widget.model w = Some m -> is_model_instance w instance = true).
  { intros w Hw. unfold is_model_instance. now rewrite Hw. }
  split; [|split].
  - rewrite (get_value_data_isinstance _ _ _ _ _ (Hi self Hm)). reflexivity.
  - intros gi.
    rewrite (get_value_data_isinstance _ _ _ _ _ (Hi self Hm)).
    rewrite (get_value_data_isinstance _ _ _ _ _ (Hi (override_get_instance self gi) Hm)).
    reflexivity.
  - intros env name.
    rewrite (get_value_data_isinstance _ _ _ _ _ (Hi (new env (Some m) name) eq_refl)).
    simpl. unfold bind, get_title, ret, get_edit_item_url.
    destruct name as [n|]; [|reflexivity].
    unfold bind, get_pk, ret, reverse. simpl.
    destruct (url_conf env n [quote pk]); reflexivity.
Qed.

Lemma get_value_data_isinstance_pk_witness :
  get_value_data (new Site.env (Some Site.Page) (Some "pages"))
    (VInstance Site.BlogPage (VInt 3) "News") []
  = (Return (VDict [("value", VInt 3); ("title", VStr "News");
                    ("edit_item_url", VStr "/admin/pages/3/")]), []).
Proof.
  apply (proj1 (get_value_data_isinstance_pk
                  (new Site.env (Some Site.Page) (Some "pages"))
                  Site.Page Site.BlogPage (VInt 3) "News" [] eq_refl eq_refl)).
Defined.

(** C10 (as amended).  Every payload that [get_value_data] returns has
    exactly the three keys ['value'], ['title'], ['edit_item_url'], in this
    order; and unless the value passed is an instance of the configured
    model whose primary key is [None], whenever its ['value'] is [None] its
    ['title'] is [''] and its ['edit_item_url'] is [None]. *)
Theorem get_value_data_payload (self : Widget.t) v log payload log' :
  get_value_data self v log = (Return payload, log') ->
  exists value title url,
    payload = VDict [("value", value); ("title", title); ("edit_item_url", url)]
    /\ ((forall cls t, v = VInstance cls VNone t -> is_model_instance self v = false) ->
        value = VNone -> title = VStr "" /\ url = VNone).
Proof.
  intros Hr.
  assert (Hempty : exists value title url,
             empty_value_data
             = VDict [("value", value); ("title", title); ("edit_item_url", url)]
             /\ ((forall cls t, v = VInstance cls VNone t ->
                              is_model_instance self v = false) ->
                 value = VNone -> title = VStr "" /\ url = VNone)).
  { exists VNone, (VStr ""), VNone. split; [reflexivity | auto]. }
  destruct (calls_get_instance self v) eqn:Hc.
  - rewrite (get_value_data_lookup _ _ _ Hc) in Hr. unfold bind in Hr.
    destruct (try_except _ _ _ log) as [[i|e] l]; [|discriminate].
    apply describe_returns in Hr as [-> | (t & u & ->)]; [exact Hempty|].
    exists v, t, u. split; [reflexivity|].
    intros _ Hv. subst v. simpl in Hc. discriminate Hc.
  - destruct v as [| b | n | r | s | l | d | cls pk t0];
      simpl in Hc; try (apply negb_false_iff in Hc);
      try (unfold is_model_instance in Hc;
           destruct (Widget.model self); discriminate Hc).
    + rewrite get_value_data_None in Hr.
      injection Hr as <- _. exact Hempty.
    + rewrite (get_value_data_isinstance _ _ _ _ _ Hc) in Hr.
      apply describe_returns in Hr as [-> | (t & u & ->)].
      * exists VNone, (VStr ""), VNone. split; [reflexivity | auto].
      * exists pk, t, u. split; [reflexivity|].
        intros Hsaved ->. rewrite (Hsaved cls t0 eq_refl) in Hc. discriminate Hc.
Qed.

Lemma get_value_data_payload_witness :
  exists value title url,
    empty_value_data
    = VDict [("value", value); ("title", title); ("edit_item_url", url)]
    /\ ((forall cls t, VInt 2 = VInstance cls VNone t ->
                     is_model_instance (new Site.env (Some Site.Page) None) (VInt 2) = false) ->
        value = VNone -> title = VStr "" /\ url = VNone).
Proof.
  apply (get_value_data_payload (new Site.env (Some Site.Page) None) (VInt 2) []
           empty_value_data [Query Site.Page (VInt 2)]).
  reflexivity.
Defined.

(** C10 as stated fails on an instance that has no primary key yet: the
    ['value'] of its payload is [None] and its ['title'] is not empty. *)
Lemma get_value_data_payload_counterexample :
  get_value_data (new Site.env (Some Site.Page) None)
    (VInstance Site.Page VNone "New page") []
  = (Return (VDict [("value", VNone); ("title", VStr "New page");
                    ("edit_item_url", VNone)]), []) /\
  VStr "New page" <> VStr "".
Proof. split; [reflexivity | discriminate]. Qed.

(** ** Beyond the value description: effects, edge cases, rendering *)

Lemma quiet_ret {A} (a : A) : quiet (ret a).
Proof. intros log. reflexivity. Qed.

Lemma quiet_raise {A} (e : exn) : quiet (@raise A e).
Proof. intros log. reflexivity. Qed.

Lemma quiet_lift {A} (o : outcome A) : quiet (lift o).
Proof. intros log. reflexivity. Qed.

Lemma quiet_bind {A B} (c : M A) (k : A -> M B) :
  quiet c -> (forall a, quiet (k a)) -> quiet (bind c k).
Proof.
  intros Hc Hk log. unfold bind. specialize (Hc log).
  destruct (c log) as [[a|e] l]; simpl in Hc; subst l; [apply Hk | reflexivity].
Qed.

Lemma quiet_getitem obj key : quiet (getitem obj key).
Proof.
  destruct obj; try apply quiet_raise. simpl.
  destruct (dict_get entries key); [apply quiet_ret | apply quiet_raise].
Qed.

Lemma quiet_get_pk obj : quiet (get_pk obj).
Proof. destruct obj; try apply quiet_raise. apply quiet_ret. Qed.

Lemma quiet_reverse env name args : quiet (reverse env name args).
Proof.
  unfold reverse. destruct (url_conf env name args);
    [apply quiet_ret | apply quiet_raise].
Qed.

Lemma quiet_admin_get_edit_item_url env name instance :
  quiet (AdminChooser.get_edit_item_url env name instance).
Proof.
  destruct name as [n|]; simpl; [|apply quiet_ret].
  apply quiet_bind; [apply quiet_get_pk | intros pk; apply quiet_reverse].
Qed.

Lemma quiet_drf_get_edit_item_url env name instance :
  quiet (DRFChooser.get_edit_item_url env name instance).
Proof.
  destruct name as [n|]; simpl; [|apply quiet_ret].
  apply quiet_bind; [apply quiet_getitem | intros pk; apply quiet_reverse].
Qed.

Lemma quiet_describe (self : Widget.t) instance value :
  (forall i, quiet (Widget.get_title self i)) ->
  (forall i, quiet (Widget.get_edit_item_url self i)) ->
  quiet (describe self instance value).
Proof.
  intros Ht Hu.
  assert (Hq : quiet (t <- Widget.get_title self instance;;
                      u <- Widget.get_edit_item_url self instance;;
                      ret (value_data value t u))).
  { apply quiet_bind; [apply Ht | intros t].
    apply quiet_bind; [apply Hu | intros u; apply quiet_ret]. }
  destruct instance; try exact Hq. apply quiet_ret.
Qed.

(** The log after [get_value_data]: that of the lookup, if there is one,
    when the other two methods are quiet. *)
Lemma get_value_data_log (self : Widget.t) v log :
  (forall i, quiet (Widget.get_title self i)) ->
  (forall i, quiet (Widget.get_edit_item_url self i)) ->
  snd (get_value_data self v log)
  = if calls_get_instance self v
    then snd (Widget.get_instance self v log)
    else log.
Proof.
  intros Ht Hu. destruct (calls_get_instance self v) eqn:Hc.
  - rewrite (get_value_data_lookup _ _ _ Hc). unfold bind, try_except.
    destruct (Widget.get_instance self v log) as [[i|e] l]; simpl.
    + apply quiet_describe; assumption.
    + destruct (exn_isinstance e (not_found_class self)); reflexivity.
  - destruct v as [| b | n | r | s | l | d | cls pk t0];
      simpl in Hc; try (apply negb_false_iff in Hc);
      try (unfold is_model_instance in Hc;
           destruct (Widget.model self); discriminate Hc).
    + reflexivity.
    + rewrite (get_value_data_isinstance _ _ _ _ _ Hc).
      apply quiet_describe; assumption.
Qed.

(** X1.  An [AdminChooser] does at most one query in [get_value_data]:
    the [objects.get(pk=value)] of its model when it looks the value up,
    and none for [None], for an instance of the model, or without a
    model. *)
Theorem admin_get_value_data_queries env model name v log :
  snd (get_value_data (new env model name) v log)
  = log ++ match model with
           | Some m => if calls_get_instance (new env model name) v
                       then [Query m v] else []
           | None => []
           end.
Proof.
  rewrite get_value_data_log;
    [| intros i; apply quiet_ret
     | intros i; apply quiet_admin_get_edit_item_url].
  destruct model as [m|]; simpl;
    destruct (calls_get_instance _ v); simpl;
    rewrite ?app_nil_r; reflexivity.
Qed.

(** X2.  A [DRFChooser] does at most one HTTP GET in [get_value_data]:
    the one to the URL of the value when it looks the value up, whatever
    the answer, and none for [None] or for an instance of its model. *)
Theorem drf_get_value_data_requests env model name api v log :
  snd (get_value_data (DRFChooser.new env model name api) v log)
  = log ++ if calls_get_instance (DRFChooser.new env model name api) v
           then [HttpGet (request_url env api v)] else [].
Proof.
  rewrite get_value_data_log;
    [| intros i; apply quiet_ret
     | intros i; apply quiet_drf_get_edit_item_url].
  destruct (calls_get_instance _ v); simpl;
    [apply drf_get_instance_log | now rewrite app_nil_r].
Qed.

(** X3.  An [AdminChooser] without a model describes [None] only: for
    every other value [get_value_data] raises [AttributeError], which the
    [except] clause does not catch, and does no query. *)
Theorem admin_without_model env name v log :
  v <> VNone ->
  get_value_data (new env None name) v log = (Raise AttributeError, log).
Proof.
  intros Hv. apply get_value_data_propagates; [|reflexivity|reflexivity].
  destruct v; simpl; congruence.
Qed.

Lemma admin_without_model_witness :
  get_value_data (new Site.env None (Some "pages")) (VInt 1) []
  = (Raise AttributeError, []).
Proof. apply (admin_without_model Site.env (Some "pages") (VInt 1) []). discriminate. Defined.

(** X4.  When the ORM finds a model instance for a looked-up value, the
    payload of an [AdminChooser] has the value as given, the [str] of the
    instance, and as edit URL the route reversed on the quoted [pk] of the
    instance found; if the route cannot be reversed, [get_value_data]
    raises [NoReverseMatch] and there is no payload. *)
Theorem admin_found_outcome env m name v cls pk title log :
  calls_get_instance (new env (Some m) name) v = true ->
  database env m v = Return (VInstance cls pk title) ->
  get_value_data (new env (Some m) name) v log
  = (match name with
     | None => Return (value_data v (VStr title) VNone)
     | Some n =>
         match url_conf env n [quote pk] with
         | Some url => Return (value_data v (VStr title) (VStr url))
         | None => Raise NoReverseMatch
         end
     end, log ++ [Query m v]).
Proof.
  intros Hc Hdb. rewrite (get_value_data_lookup _ _ _ Hc).
  unfold bind, try_except. simpl. unfold objects_get. rewrite Hdb. simpl.
  unfold bind, get_title, ret. simpl.
  destruct name as [n|]; simpl; [|reflexivity].
  unfold bind, reverse, ret, raise. simpl.
  destruct (url_conf env n [quote pk]); reflexivity.
Qed.

Lemma admin_found_outcome_witness :
  get_value_data (new Site.env (Some Site.Page) (Some "pages")) (VInt 1) []
  = (Return (value_data (VInt 1) (VStr "Home") (VStr "/admin/pages/1/")),
     [Query Site.Page (VInt 1)]).
Proof.
  apply (admin_found_outcome Site.env Site.Page (Some "pages") (VInt 1)
           Site.Page (VInt 1) "Home" []); reflexivity.
Defined.


(** X6.  For a looked-up value whose answer is a JSON object with an
    ['id'], the payload of a [DRFChooser] has the value as given, the
    [str] of the object, and as edit URL the route reversed on the ['id']
    of the object as it is (not quoted); if the route cannot be reversed,
    [get_value_data] raises [NoReverseMatch]. *)
Theorem drf_found_outcome env model name api v d id log :
  calls_get_instance (DRFChooser.new env model name api) v = true ->
  network env (request_url env api v) = JsonBody (VDict d) ->
  dict_get d "id" = Some id ->
  get_value_data (DRFChooser.new env model name api) v log
  = (match name with
     | None => Return (value_data v (VStr (py_str env (VDict d))) VNone)
     | Some n =>
         match url_conf env n [id] with
         | Some url => Return (value_data v (VStr (py_str env (VDict d))) (VStr url))
         | None => Raise NoReverseMatch
         end
     end, log ++ [HttpGet (request_url env api v)]).
Proof.
  intros Hc Hnet Hid. rewrite (get_value_data_lookup _ _ _ Hc).
  unfold bind, try_except. simpl.
  unfold DRFChooser.get_instance, bind, requests_get_json.
  rewrite Hnet. simpl. rewrite Hid. simpl.
  unfold bind, get_title, ret. simpl.
  destruct name as [n|]; simpl; [|reflexivity].
  rewrite Hid. unfold bind, reverse, ret, raise. simpl.
  destruct (url_conf env n [id]); reflexivity.
Qed.

Lemma drf_found_outcome_witness :
  get_value_data (DRFChooser.new Site.env None (Some "pages") Site.api) (VInt 5) []
  = (Return (value_data (VInt 5) (VStr "{...}") (VStr "/admin/pages/5/")),
     [HttpGet "https://cms.example/api/pages/5/?format=json"]).
Proof.
  apply (drf_found_outcome Site.env None (Some "pages") Site.api (VInt 5)
           [("id", VInt 5); ("title", VStr "Five")] (VInt 5) []); reflexivity.
Defined.

(** X7.  An answer that is JSON but not an object is no not-found report:
    unless ['id' in answer] holds (a list with the item ['id'], a string
    with ['id'] in it), [get_value_data] of a [DRFChooser] raises
    [TypeError] for the looked-up value. *)
Theorem drf_non_object_answer env model name api v answer log :
  calls_get_instance (DRFChooser.new env model name api) v = true ->
  network env (request_url env api v) = JsonBody answer ->
  (forall d, answer <> VDict d) ->
  fst (contains answer "id" []) <> Return true ->
  get_value_data (DRFChooser.new env model name api) v log
  = (Raise TypeError, log ++ [HttpGet (request_url env api v)]).
Proof.
  intros Hc Hnet Hd Hid. apply get_value_data_propagates; [assumption| |].
  - simpl. unfold DRFChooser.get_instance, bind, requests_get_json.
    rewrite Hnet.
    destruct answer as [| b | n | r | s | l | d | cls pk t];
      simpl in *; try reflexivity.
    + destruct (str_contains "id" s); [congruence | reflexivity].
    + destruct (existsb _ l); [congruence | reflexivity].
    + now destruct (Hd d).
  - unfold not_found_class. destruct (Widget.model _); reflexivity.
Qed.

Lemma drf_non_object_answer_witness :
  let env := {| database := Site.rows;
                network := fun _ => JsonBody (VList [VStr "no such page"]);
                url_conf := Site.routes;
                container_str := fun _ => "[...]" |} in
  get_value_data (DRFChooser.new env None None Site.api) (VInt 5) []
  = (Raise TypeError, [HttpGet "https://cms.example/api/pages/5/?format=json"]).
Proof.
  intros env.
  apply (drf_non_object_answer env None None Site.api (VInt 5)
           (VList [VStr "no such page"]) []);
    try reflexivity; try discriminate.
Defined.

(** *** Quoting of the id in the URL *)

Lemma is_quoted_In (c : ascii) : is_quoted c = true -> In c QUOTE_CHARS.
Proof.
  unfold is_quoted. intros H. apply existsb_exists in H as (x & Hin & Hx).
  apply Ascii.eqb_eq in Hx. now subst x.
Qed.

Lemma hex_digit_unquoted (n : N) : is_quoted (hex_digit n) = false.
Proof.
  destruct n as [|p]; [reflexivity|].
  do 5 (try (destruct p as [p|p|]; try reflexivity)).
Qed.

Lemma quoted_hex_inj (c1 c2 : ascii) :
  is_quoted c1 = true -> is_quoted c2 = true ->
  hex_digit (N_of_ascii c1 / 16) = hex_digit (N_of_ascii c2 / 16) ->
  hex_digit (N_of_ascii c1 mod 16) = hex_digit (N_of_ascii c2 mod 16) ->
  c1 = c2.
Proof.
  intros H1 H2. apply is_quoted_In in H1, H2.
  unfold QUOTE_CHARS in H1, H2. simpl in H1, H2.
  repeat (destruct H1 as [<-|H1]; [|]); try contradiction;
    repeat (destruct H2 as [<-|H2]; [|]); try contradiction;
    vm_compute; intros Hhi Hlo; solve [reflexivity | discriminate].
Qed.

Lemma quote_str_inj (s1 s2 : string) : quote_str s1 = quote_str s2 -> s1 = s2.
Proof.
  revert s2. induction s1 as [|c1 s1 IH]; intros [|c2 s2]; simpl.
  - reflexivity.
  - destruct (is_quoted c2); discriminate.
  - destruct (is_quoted c1); discriminate.
  - destruct (is_quoted c1) eqn:Q1, (is_quoted c2) eqn:Q2; intros H.
    + injection H as Hhi Hlo Hrest.
      rewrite (quoted_hex_inj c1 c2 Q1 Q2 Hhi Hlo), (IH s2 Hrest). reflexivity.
    + injection H as <- _. discriminate Q2.
    + injection H as -> _. discriminate Q1.
    + injection H as -> Hrest. now rewrite (IH s2 Hrest).
Qed.

Lemma append_ascii (a b : string) :
  list_ascii_of_string (a ++ b)
  = list_ascii_of_string a ++ list_ascii_of_string b.
Proof. induction a as [|c a IH]; simpl; [reflexivity | now rewrite IH]. Qed.

Lemma append_inv_head (a b c : string) : (a ++ b = a ++ c)%string -> b = c.
Proof. induction a as [|x a IH]; simpl; [auto|]. intros H. injection H. exact IH. Qed.

Lemma append_inv_tail (a b c : string) : (a ++ c = b ++ c)%string -> a = b.
Proof.
  intros H. apply (f_equal list_ascii_of_string) in H.
  rewrite !append_ascii in H. apply app_inv_tail in H.
  apply (f_equal string_of_list_ascii) in H.
  now rewrite !string_of_list_ascii_of_string in H.
Qed.

(** X8.  Two different [str] ids are never requested at the same URL:
    [DRFChooser.get_instance] quotes the id, and the quoting can be read
    back. *)
Theorem request_url_inj env api (s1 s2 : string) :
  request_url env api (VStr s1) = request_url env api (VStr s2) -> s1 = s2.
Proof.
  unfold request_url. simpl. intros H.
  apply append_inv_head, append_inv_tail in H. now apply quote_str_inj.
Qed.

Lemma request_url_inj_witness : "5" = "5".
Proof. apply (request_url_inj Site.env Site.api "5" "5"). reflexivity. Defined.

(** X9.  In the URL that [DRFChooser.get_instance] requests for a [str]
    id, every character of the id part, between [api_base_url] and
    ['/?format=json'], that is one of the characters the admin quotes
    (slash, colon, question mark, hash, ampersand, equals sign, percent sign
    and the rest) is an underscore. *)
Theorem request_url_quoted env api (s : string) :
  exists q,
    request_url env api (VStr s) = (api ++ q ++ "/?format=json")%string
    /\ forall c, In c (list_ascii_of_string q) -> is_quoted c = true -> c = "_"%char.
Proof.
  exists (quote_str s). split; [reflexivity|].
  induction s as [|a s IH]; simpl; [contradiction|].
  destruct (is_quoted a) eqn:Qa; simpl.
  - intros c [<- | [<- | [<- | Hin]]] Hc; try reflexivity;
      try (rewrite hex_digit_unquoted in Hc; discriminate Hc).
    now apply IH.
  - intros c [<- | Hin] Hc; [congruence | now apply IH].
Qed.

(** *** From the submitted form to the payload *)

Lemma get_value_data_returns (self : Widget.t) v log payload log' :
  get_value_data self v log = (Return payload, log') ->
  exists value title url, payload = value_data value title url.
Proof.
  intros Hr.
  assert (He : exists value title url, empty_value_data = value_data value title url)
    by (exists VNone, (VStr ""), VNone; reflexivity).
  destruct (calls_get_instance self v) eqn:Hc.
  - rewrite (get_value_data_lookup _ _ _ Hc) in Hr. unfold bind in Hr.
    destruct (try_except _ _ _ log) as [[i|e] l]; [|discriminate].
    apply describe_returns in Hr as [-> | (t & u & ->)]; eauto.
  - destruct v as [| b | n | r | s | l | d | cls pk t0];
      simpl in Hc; try (apply negb_false_iff in Hc);
      try (unfold is_model_instance in Hc;
           destruct (Widget.model self); discriminate Hc).
    + rewrite get_value_data_None in Hr. injection Hr as <- _. exact He.
    + rewrite (get_value_data_isinstance _ _ _ _ _ Hc) in Hr.
      apply describe_returns in Hr as [-> | (t & u & ->)]; eauto.
Qed.

(** X10.  A form submitted without the field of the widget, or with the
    empty string in it, is described as the empty selection, and nothing
    is looked up. *)
Theorem empty_submission (self : Widget.t) (data files : gmap string pyvalue) name log :
  data !! name = None \/ data !! name = Some (VStr "") ->
  get_value_data self (value_from_datadict data files name) log
  = (Return empty_value_data, log).
Proof.
  unfold value_from_datadict, Widget_value_from_datadict.
  intros [-> | ->]; reflexivity.
Qed.

Lemma empty_submission_witness :
  get_value_data (new Site.env (Some Site.Page) None)
    (value_from_datadict {[ "page" := VStr "" ]} ∅ "page") []
  = (Return empty_value_data, []).
Proof.
  apply (empty_submission (new Site.env (Some Site.Page) None)
           {[ "page" := VStr "" ]} ∅ "page" []).
  right. reflexivity.
Defined.

(** *** Construction *)

Import Rendering.

Lemma popped_start (self kwargs : gmap string pyvalue) :
  popped self kwargs [] (self, kwargs).
Proof. split; intros k; reflexivity. Qed.

Lemma elem_of_cons_iff (k key : string) (done : list string) :
  k ∈ key :: done <-> k = key \/ k ∈ done.
Proof.
  split.
  - inversion 1; auto.
  - intros [-> | Hin]; [left | now right].
Qed.

Lemma popped_step (self kwargs : gmap string pyvalue) done key st :
  popped self kwargs done st ->
  popped self kwargs (key :: done) (pop_kwarg key st).
Proof.
  intros [H2 H1]. unfold pop_kwarg.
  assert (Hhere : bool_decide (key ∈ key :: done) = true)
    by (apply bool_decide_eq_true_2; left).
  assert (Hthere : forall k, k <> key ->
            bool_decide (k ∈ key :: done) = bool_decide (k ∈ done)).
  { intros k Hne. apply bool_decide_ext. rewrite elem_of_cons_iff. tauto. }
  destruct (st.2 !! key) as [v|] eqn:Hkey.
  - assert (Hkw : bool_decide (key ∈ done) = false /\ kwargs !! key = Some v).
    { rewrite H2 in Hkey. destruct (bool_decide (key ∈ done)); [discriminate | auto]. }
    destruct Hkw as [Hnd Hkw].
    split; intros k; simpl; destruct (decide (k = key)) as [->|Hne].
    + now rewrite lookup_delete_eq, Hhere.
    + now rewrite lookup_delete_ne, H2, Hthere.
    + now rewrite lookup_insert_eq, Hhere, Hkw.
    + now rewrite lookup_insert_ne, H1, Hthere.
  - rewrite H2 in Hkey.
    split; intros k; destruct (decide (k = key)) as [->|Hne].
    + rewrite H2, Hhere. destruct (bool_decide (key ∈ done)); [reflexivity | exact Hkey].
    + now rewrite H2, Hthere.
    + rewrite H1, Hhere.
      destruct (bool_decide (key ∈ done)); [reflexivity | now rewrite Hkey].
    + now rewrite H1, Hthere.
Qed.

Lemma popped_perm (self kwargs : gmap string pyvalue) done done' st :
  (forall k, k ∈ done <-> k ∈ done') ->
  popped self kwargs done st -> popped self kwargs done' st.
Proof.
  intros Hd [H2 H1]. split; intros k.
  - rewrite H2. now rewrite (bool_decide_ext _ _ (Hd k)).
  - rewrite H1. now rewrite (bool_decide_ext _ _ (Hd k)).
Qed.

(** X11.  [__init__] hands to the inherited [__init__] the keyword
    arguments without the five of its own ([choose_one_text],
    [choose_another_text], [clear_choice_text], [link_to_chosen_text],
    [show_edit_link]), every other one as given; and each of the five that
    is given, whatever its value, becomes the attribute of the instance,
    the attributes not given staying as they are. *)
Theorem init_kwargs {A}
    (super_init : gmap string pyvalue -> gmap string pyvalue -> A)
    (self kwargs : gmap string pyvalue) :
  __init__ super_init self kwargs
  = super_init
      (filter (fun kv => kv.1 ∈ own_kwargs) kwargs ∪ self)
      (filter (fun kv => kv.1 ∉ own_kwargs) kwargs).
Proof.
  unfold __init__.
  pose proof (popped_start self kwargs) as H.
  apply (popped_step _ _ _ "choose_one_text") in H.
  apply (popped_step _ _ _ "choose_another_text") in H.
  apply (popped_step _ _ _ "clear_choice_text") in H.
  apply (popped_step _ _ _ "link_to_chosen_text") in H.
  apply (popped_step _ _ _ "show_edit_link") in H.
  apply (popped_perm _ _ _ own_kwargs) in H;
    [| intros k; unfold own_kwargs; rewrite !elem_of_cons_iff; tauto].
  destruct H as [H2 H1]. f_equal; apply map_eq; intros k.
  - rewrite H1. destruct (decide (k ∈ own_kwargs)) as [Hin|Hin].
    + rewrite bool_decide_eq_true_2 by done.
      destruct (kwargs !! k) as [v|] eqn:Hk.
      * symmetry. apply lookup_union_Some_l, map_lookup_filter_Some. done.
      * rewrite lookup_union_r; [done|].
        apply map_lookup_filter_None. left. exact Hk.
    + rewrite bool_decide_eq_false_2 by done.
      rewrite lookup_union_r; [done|].
      apply map_lookup_filter_None. right. intros v _. exact Hin.
  - rewrite H2. destruct (decide (k ∈ own_kwargs)) as [Hin|Hin].
    + rewrite bool_decide_eq_true_2 by done. symmetry.
      apply map_lookup_filter_None. right. intros v _ Hn. now apply Hn.
    + rewrite bool_decide_eq_false_2 by done.
      destruct (kwargs !! k) as [v|] eqn:Hk; symmetry.
      * apply map_lookup_filter_Some. done.
      * apply map_lookup_filter_None. left. exact Hk.
Qed.

(** *** Rendering *)

Lemma quiet_get_choose_modal_url env self : quiet (get_choose_modal_url env self).
Proof.
  unfold get_choose_modal_url.
  destruct (Chooser.choose_modal_url_name self);
    [apply quiet_reverse | apply quiet_ret].
Qed.

Lemma quiet_render_fields env r self name attrs value title url :
  quiet (render_fields env r self name attrs value title url).
Proof.
  unfold render_fields.
  apply quiet_bind; [apply quiet_lift | intros html].
  apply quiet_bind; [apply quiet_get_choose_modal_url | intros cm].
  apply quiet_lift.
Qed.

Lemma render_value_data_fields env r self name attrs value title url log :
  render_value_data env r self name attrs (value_data value title url) log
  = render_fields env r self name attrs value title url log.
Proof.
  unfold render_value_data, render_fields, value_data, bind, lift, getitem, ret.
  simpl. destruct (Input_render_html r name value attrs); reflexivity.
Qed.

Lemma render_html_new env r self name value attrs log :
  tuple_ge (WAGTAIL_VERSION r) [2; 12]%Z = true ->
  render_html env r self name value attrs log
  = render_value_data env r self name attrs value log.
Proof. intros Hv. unfold render_html. rewrite Hv. reflexivity. Qed.

Lemma render_html_old env r self name value attrs log :
  tuple_ge (WAGTAIL_VERSION r) [2; 12]%Z = false ->
  render_html env r self name value attrs log
  = (value_data <- get_value_data (Chooser.widget self) value;;
     render_value_data env r self name attrs value_data) log.
Proof. intros Hv. unfold render_html. rewrite Hv. reflexivity. Qed.

(** X12.  From Wagtail 2.12 on, [render_html] looks nothing up: it does
    no query and no HTTP GET, whatever value it is given. *)
Theorem render_html_no_lookup env r self name value attrs :
  tuple_ge (WAGTAIL_VERSION r) [2; 12]%Z = true ->
  forall log, snd (render_html env r self name value attrs log) = log.
Proof.
  intros Hv log. rewrite (render_html_new _ _ _ _ _ _ _ Hv).
  revert log. change (quiet (render_value_data env r self name attrs value)).
  unfold render_value_data.
  apply quiet_bind; [apply quiet_getitem | intros v1].
  apply quiet_bind; [apply quiet_lift | intros html].
  apply quiet_bind; [apply quiet_getitem | intros v2].
  apply quiet_bind; [apply quiet_getitem | intros t].
  apply quiet_bind; [apply quiet_getitem | intros u].
  apply quiet_bind; [apply quiet_get_choose_modal_url | intros cm].
  apply quiet_lift.
Qed.

Lemma render_html_no_lookup_witness :
  snd (render_html Site.env Demo.wagtail_2_15 Demo.page_chooser "page" (VInt 1)
         (VDict [("id", VStr "id_page")]) []) = [].
Proof.
  apply (render_html_no_lookup Site.env Demo.wagtail_2_15 Demo.page_chooser
           "page" (VInt 1) (VDict [("id", VStr "id_page")]) eq_refl []).
Defined.

(** X13.  From Wagtail 2.12 on, [render_html] needs the value description:
    given anything that is not a dict ([None], a primary key, an instance)
    it raises [TypeError]. *)
Theorem render_html_raw_value env r self name value attrs log :
  tuple_ge (WAGTAIL_VERSION r) [2; 12]%Z = true ->
  (forall d, value <> VDict d) ->
  render_html env r self name value attrs log = (Raise TypeError, log).
Proof.
  intros Hv Hd. rewrite (render_html_new _ _ _ _ _ _ _ Hv).
  unfold render_value_data, bind.
  destruct value; try reflexivity. now destruct (Hd entries).
Qed.

Lemma render_html_raw_value_witness :
  render_html Site.env Demo.wagtail_2_15 Demo.page_chooser "page" (VInt 1)
    (VDict [("id", VStr "id_page")]) []
  = (Raise TypeError, []).
Proof.
  apply (render_html_raw_value Site.env Demo.wagtail_2_15 Demo.page_chooser
           "page" (VInt 1) (VDict [("id", VStr "id_page")]) [] eq_refl).
  discriminate.
Defined.

(** X14.  Before Wagtail 2.12, [render_html] renders what
    [get_value_data] describes: when that returns, its three fields are
    there to read, the input is rendered with the ['value'] field, and
    ['is_empty'] tells whether that field is [None]; when that raises, so
    does [render_html]. *)
Theorem render_html_describes env r self name value attrs log :
  tuple_ge (WAGTAIL_VERSION r) [2; 12]%Z = false ->
  match get_value_data (Chooser.widget self) value log with
  | (Return payload, log') =>
      exists field title url,
        payload = VDict [("value", field); ("title", title); ("edit_item_url", url)]
        /\ render_html env r self name value attrs log
           = (original_field_html <- lift (Input_render_html r name field attrs);;
              choose_modal_url <- get_choose_modal_url env self;;
              lift (render_to_string r (Chooser.template self) self
                      [("original_field_html", original_field_html);
                       ("attrs", attrs);
                       ("is_empty", VBool (is_None field));
                       ("title", title);
                       ("edit_item_url", url);
                       ("choose_modal_url", choose_modal_url)])) log'
  | (Raise e, log') =>
      render_html env r self name value attrs log = (Raise e, log')
  end.
Proof.
  intros Hv. rewrite (render_html_old _ _ _ _ _ _ _ Hv).
  destruct (get_value_data (Chooser.widget self) value log) as [[payload|e] log'] eqn:Hg.
  - destruct (get_value_data_returns _ _ _ _ _ Hg) as (field & title & url & ->).
    exists field, title, url. split; [reflexivity|].
    rewrite (bind_Return _ _ _ _ _ Hg). apply render_value_data_fields.
  - apply (bind_Raise _ _ _ _ _ Hg).
Qed.

Lemma render_html_describes_witness :
  render_html Site.env Demo.wagtail_2_11 Demo.page_chooser "page" (VInt 1)
    (VDict [("id", VStr "id_page")]) []
  = (Return (VStr "generic_chooser/widgets/chooser.html: Home"),
     [Query Site.Page (VInt 1)]).
Proof.
  pose proof (render_html_describes Site.env Demo.wagtail_2_11 Demo.page_chooser
                "page" (VInt 1) (VDict [("id", VStr "id_page")]) [] eq_refl) as H.
  simpl in H. destruct H as (field & title & url & Hp & Hr).
  injection Hp as <- <- <-. exact Hr.
Defined.

(** X15.  Before Wagtail 2.12, a value whose instance is not found is
    rendered as the empty chooser: the input has no value, ['is_empty'] is
    true, the title is empty and there is no edit URL. *)
Theorem render_html_not_found env r self name value attrs e log log' :
  tuple_ge (WAGTAIL_VERSION r) [2; 12]%Z = false ->
  calls_get_instance (Chooser.widget self) value = true ->
  Widget.get_instance (Chooser.widget self) value log = (Raise e, log') ->
  exn_isinstance e (not_found_class (Chooser.widget self)) = true ->
  render_html env r self name value attrs log
  = (original_field_html <- lift (Input_render_html r name VNone attrs);;
     choose_modal_url <- get_choose_modal_url env self;;
     lift (render_to_string r (Chooser.template self) self
             [("original_field_html", original_field_html);
              ("attrs", attrs);
              ("is_empty", VBool true);
              ("title", VStr "");
              ("edit_item_url", VNone);
              ("choose_modal_url", choose_modal_url)])) log'.
Proof.
  intros Hv Hc Hg He. rewrite (render_html_old _ _ _ _ _ _ _ Hv).
  rewrite (bind_Return _ _ _ _ _ (get_value_data_caught _ _ _ _ _ Hc Hg He)).
  apply (render_value_data_fields env r self name attrs VNone (VStr "") VNone).
Qed.

Lemma render_html_not_found_witness :
  render_html Site.env Demo.wagtail_2_11 Demo.page_chooser "page" (VInt 2)
    (VDict [("id", VStr "id_page")]) []
  = (Return (VStr "generic_chooser/widgets/chooser.html: empty"),
     [Query Site.Page (VInt 2)]).
Proof.
  apply (render_html_not_found Site.env Demo.wagtail_2_11 Demo.page_chooser
           "page" (VInt 2) (VDict [("id", VStr "id_page")])
           (DoesNotExist Site.Page) [] [Query Site.Page (VInt 2)]);
    reflexivity.
Defined.

(** X16.  From Wagtail 2.12 on, [js_args] of the telepath adapter renders
    the empty chooser under the name ['__NAME__'] and the id ['__ID__'],
    returns that one piece of HTML, and looks nothing up. *)
Theorem js_args_empty_chooser env r widget log :
  tuple_ge (WAGTAIL_VERSION r) [2; 12]%Z = true ->
  js_args env r widget log
  = (original_field_html <-
       lift (Input_render_html r "__NAME__" VNone (VDict [("id", VStr "__ID__")]));;
     choose_modal_url <- get_choose_modal_url env widget;;
     html <- lift (render_to_string r (Chooser.template widget) widget
                     [("original_field_html", original_field_html);
                      ("attrs", VDict [("id", VStr "__ID__")]);
                      ("is_empty", VBool true);
                      ("title", VStr "");
                      ("edit_item_url", VNone);
                      ("choose_modal_url", choose_modal_url)]);;
     ret (VList [html])) log
  /\ snd (js_args env r widget log) = log.
Proof.
  intros Hv.
  assert (Hj : js_args env r widget log
               = (html <- render_fields env r widget "__NAME__"
                            (VDict [("id", VStr "__ID__")]) VNone (VStr "") VNone;;
                  ret (VList [html])) log).
  { unfold js_args.
    rewrite (bind_Return _ _ _ _ _ (get_value_data_None (Chooser.widget widget) log)).
    unfold bind at 1 2.
    rewrite (render_html_new _ _ _ _ _ _ _ Hv).
    change empty_value_data with (value_data VNone (VStr "") VNone).
    rewrite render_value_data_fields. reflexivity. }
  split.
  - rewrite Hj. unfold render_fields, chooser_context, bind, lift, ret. simpl.
    destruct (Input_render_html r "__NAME__" VNone _); [|reflexivity].
    destruct (get_choose_modal_url env widget log) as [[cm|e] l]; [|reflexivity].
    destruct (render_to_string r _ _ _); reflexivity.
  - rewrite Hj. revert log Hj. intros log _.
    apply (quiet_bind (render_fields env r widget "__NAME__"
                         (VDict [("id", VStr "__ID__")]) VNone (VStr "") VNone)
             (fun html => ret (VList [html])));
      [apply quiet_render_fields | intros html; apply quiet_ret].
Qed.

Lemma js_args_empty_chooser_witness :
  js_args Site.env Demo.wagtail_2_15 Demo.page_chooser []
  = (Return (VList [VStr "generic_chooser/widgets/chooser.html: empty"]), []).
Proof.
  apply (proj1 (js_args_empty_chooser Site.env Demo.wagtail_2_15
                  Demo.page_chooser [] eq_refl)).
Defined.

(** X17.  A [DRFChooser] with a model and an edit route cannot describe an
    instance of that model: [get_edit_item_url] subscripts the instance
    with ['id'], and [get_value_data] raises [TypeError], with no
    request. *)
Theorem drf_model_instance env m name api cls pk title log :
  issubclass cls m = true ->
  get_value_data (DRFChooser.new env (Some m) (Some name) api)
    (VInstance cls pk title) log
  = (Raise TypeError, log).
Proof.
  intros Hs. rewrite get_value_data_isinstance.
  - reflexivity.
  - unfold is_model_instance. simpl. exact Hs.
Qed.

Lemma drf_model_instance_witness :
  get_value_data (DRFChooser.new Site.env (Some Site.Page) (Some "pages") Site.api)
    (VInstance Site.BlogPage (VInt 3) "News") []
  = (Raise TypeError, []).
Proof.
  apply (drf_model_instance Site.env Site.Page "pages" Site.api Site.BlogPage
           (VInt 3) "News" []).
  reflexivity.
Defined.
